(** * Apollo vendor-request dispatch (firmware/src/vendor.c)

    A shallow embedding of the vendor-request dispatch layer of the Apollo
    debug module firmware, and the properties of its three-stage dispatch.

    The C functions become functions in a small writer/state monad: every
    call runs on a [device] (the hardware state) and yields its C return
    value, the device afterwards and the chronological list of calls it made
    to its collaborators.  Integers are [Z]; the request fields are the
    unsigned 8- and 16-bit fields of [tusb_control_request_t]. *)

From Stdlib Require Import ZArith List String Ascii Bool Lia.
Import ListNotations.
Local Open Scope Z_scope.

(** ** Requests *)

(** [tusb_control_request_t]: the setup packet of a control transfer. *)
Record tusb_control_request_t : Type := mk_request {
  bmRequestType : Z;  (* uint8_t  *)
  bRequest      : Z;  (* uint8_t  *)
  wValue        : Z;  (* uint16_t *)
  wIndex        : Z;  (* uint16_t *)
  wLength       : Z   (* uint16_t *)
}.

(** The values a request can really carry. *)
Definition request_in_range (r : tusb_control_request_t) : Prop :=
  0 <= bmRequestType r < 2 ^ 8 /\ 0 <= bRequest r < 2 ^ 8 /\
  0 <= wValue r < 2 ^ 16 /\ 0 <= wIndex r < 2 ^ 16 /\ 0 <= wLength r < 2 ^ 16.

(** ** Supported vendor requests (the anonymous enum) *)

Definition VENDOR_REQUEST_GET_ID : Z := 0xa0.
Definition VENDOR_REQUEST_SET_LED_PATTERN : Z := 0xa1.

Definition VENDOR_REQUEST_JTAG_START : Z := 0xbf.
Definition VENDOR_REQUEST_JTAG_STOP : Z := 0xbe.

Definition VENDOR_REQUEST_JTAG_CLEAR_OUT_BUFFER : Z := 0xb0.
Definition VENDOR_REQUEST_JTAG_SET_OUT_BUFFER : Z := 0xb1.
Definition VENDOR_REQUEST_JTAG_GET_IN_BUFFER : Z := 0xb2.
Definition VENDOR_REQUEST_JTAG_SCAN : Z := 0xb3.
Definition VENDOR_REQUEST_JTAG_RUN_CLOCK : Z := 0xb4.
Definition VENDOR_REQUEST_JTAG_GOTO_STATE : Z := 0xb5.
Definition VENDOR_REQUEST_JTAG_GET_STATE : Z := 0xb6.
Definition VENDOR_REQUEST_JTAG_BULK_SCAN : Z := 0xb7.

Definition VENDOR_REQUEST_TRIGGER_RECONFIGURATION : Z := 0xc0.
Definition VENDOR_REQUEST_FORCE_FPGA_OFFLINE : Z := 0xc1.
Definition VENDOR_REQUEST_ALLOW_FPGA_TAKEOVER_USB : Z := 0xc2.

Definition VENDOR_REQUEST_DEBUG_SPI_SEND : Z := 0x50.
Definition VENDOR_REQUEST_DEBUG_SPI_READ_RESPONSE : Z := 0x51.
Definition VENDOR_REQUEST_FLASH_SPI_SEND : Z := 0x52.
Definition VENDOR_REQUEST_TAKE_FLASH_LINES : Z := 0x53.
Definition VENDOR_REQUEST_RELEASE_FLASH_LINES : Z := 0x54.

Definition VENDOR_REQUEST_GET_RAIL_VOLTAGE : Z := 0xe0.

Definition VENDOR_REQUEST_GET_MS_DESCRIPTOR : Z := 0xee.

(** ** Static data *)

(** The code of a C character constant. *)
Definition char (a : ascii) : Z := Z.of_N (N_of_ascii a).

(** A C string literal used as an array initialiser: its characters followed
    by the terminating NUL. *)
Definition c_string (s : string) : list Z :=
  map char (list_ascii_of_string s) ++ [0].

(** [sizeof] of an array of [uint8_t] or [char]: one byte per element. *)
Definition sizeof (bytes : list Z) : Z := Z.of_nat (List.length bytes).

(** Modelled from the spec: the byte-splitting macros [U16_TO_U8S_LE] and
    [U32_TO_U8S_LE] come from the USB stack's headers, which are not part of
    the sources at hand; they expand to the bytes of their argument, least
    significant first (the header fields of the descriptor are
    little-endian). *)
Definition U16_TO_U8S_LE (u16 : Z) : list Z :=
  [Z.land u16 0xff; Z.land (Z.shiftr u16 8) 0xff].

Definition U32_TO_U8S_LE (u32 : Z) : list Z :=
  [Z.land u32 0xff; Z.land (Z.shiftr u32 8) 0xff;
   Z.land (Z.shiftr u32 16) 0xff; Z.land (Z.shiftr u32 24) 0xff].

(** Microsoft OS 1.0 descriptor. *)
Definition desc_ms_os_10 : list Z :=
  (* Header: length, bcdVersion, wIndex, bCount, reserved[7] *)
  U32_TO_U8S_LE 0x0028 ++
  U16_TO_U8S_LE 0x0100 ++
  U16_TO_U8S_LE 0x0004 ++
  [0x01] ++
  [0x00; 0x00; 0x00; 0x00; 0x00; 0x00; 0x00] ++
  (* Compatible ID: bFirstInterfaceNumber, reserved[1], compatibleID[8],
     subCompatibleID[8], reserved[6] *)
  [0x02] ++
  [0x01] ++
  [char "W"; char "I"; char "N"; char "U"; char "S"; char "B"; 0x00; 0x00] ++
  [0x00; 0x00; 0x00; 0x00; 0x00; 0x00; 0x00; 0x00] ++
  [0x00; 0x00; 0x00; 0x00; 0x00; 0x00].

(** The [static char description[]] of [handle_get_id_request]. *)
Definition description : list Z := c_string "Apollo Debug Module".

(** Reading a little-endian field back from its bytes. *)
Definition le_value (bytes : list Z) : Z :=
  fold_right (fun b acc => b + 256 * acc) 0 bytes.

(** The bytes [off .. off + n - 1] of an array. *)
Definition field (off n : nat) (bytes : list Z) : list Z :=
  firstn n (skipn off bytes).

(** ** Handlers and the calls they make *)

(** Handlers implemented by the JTAG and SPI collaborators (jtag.h,
    debug_spi.h); the dispatcher only calls them. *)
Inductive extern_handler : Type :=
| jtag_request_clear_out_buffer
| jtag_request_set_out_buffer
| jtag_request_get_in_buffer
| jtag_request_scan
| jtag_run_clock
| jtag_start
| jtag_go_to_state
| jtag_stop
| jtag_get_state
| debug_spi_send
| debug_spi_get_response
| flash_spi_send
| take_configuration_spi
| release_configuration_spi
| debug_spi_send_complete
| flash_spi_send_complete.

(** Every [handle_...] function the three dispatchers can call. *)
Inductive handler : Type :=
| H_get_ms_descriptor
| H_get_id_request
| H_set_led_pattern
| H_trigger_fpga_reconfiguration
| H_force_fpga_offline
| H_allow_fpga_takeover_usb
| H_allow_fpga_takeover_usb_finish
| H_extern (e : extern_handler).

(** What a dispatch is observed to do: entering a handler, and the calls the
    handlers of this file make to the transfer primitive and to the LED, FPGA
    and USB-switch drivers. *)
Inductive event : Type :=
| Invoke (h : handler) (rhport : Z) (request : tusb_control_request_t)
| Call_tud_control_xfer (rhport : Z) (request : tusb_control_request_t)
                        (buffer : option (list Z)) (len : Z)
| Call_led_set_blink_pattern (pattern : Z)
| Call_trigger_fpga_reconfiguration
| Call_force_fpga_offline
| Call_allow_fpga_takeover_usb.

Definition handler_of (e : event) : option handler :=
  match e with
  | Invoke h _ _ => Some h
  | _ => None
  end.

(** The handlers entered during a run, in order. *)
Fixpoint invoked (t : list event) : list handler :=
  match t with
  | [] => []
  | e :: t' =>
      match handler_of e with
      | Some h => h :: invoked t'
      | None => invoked t'
      end
  end.

Definition is_takeover (e : event) : bool :=
  match e with
  | Call_allow_fpga_takeover_usb => true
  | _ => false
  end.

(** How many times [allow_fpga_takeover_usb()] was called during a run. *)
Definition takeover_calls (t : list event) : nat :=
  List.length (filter is_takeover t).

(** The (buffer, len) pairs handed to [tud_control_xfer] during a run. *)
Fixpoint submitted (t : list event) : list (option (list Z) * Z) :=
  match t with
  | [] => []
  | Call_tud_control_xfer _ _ buffer len :: t' => (buffer, len) :: submitted t'
  | _ :: t' => submitted t'
  end.

(** ** The stage tables, as data

    The case labels of the three [switch] statements, each with the handler
    its case calls.  [has_debug_spi] is [_BOARD_HAS_DEBUG_SPI]. *)

Definition setup_table (has_debug_spi : bool) : list (Z * handler) :=
  [ (VENDOR_REQUEST_GET_ID, H_get_id_request);
    (VENDOR_REQUEST_TRIGGER_RECONFIGURATION, H_trigger_fpga_reconfiguration);
    (VENDOR_REQUEST_FORCE_FPGA_OFFLINE, H_force_fpga_offline);
    (VENDOR_REQUEST_ALLOW_FPGA_TAKEOVER_USB, H_allow_fpga_takeover_usb);
    (VENDOR_REQUEST_JTAG_CLEAR_OUT_BUFFER, H_extern jtag_request_clear_out_buffer);
    (VENDOR_REQUEST_JTAG_SET_OUT_BUFFER, H_extern jtag_request_set_out_buffer);
    (VENDOR_REQUEST_JTAG_GET_IN_BUFFER, H_extern jtag_request_get_in_buffer);
    (VENDOR_REQUEST_JTAG_SCAN, H_extern jtag_request_scan);
    (VENDOR_REQUEST_JTAG_RUN_CLOCK, H_extern jtag_run_clock);
    (VENDOR_REQUEST_JTAG_START, H_extern jtag_start);
    (VENDOR_REQUEST_JTAG_GOTO_STATE, H_extern jtag_go_to_state);
    (VENDOR_REQUEST_JTAG_STOP, H_extern jtag_stop);
    (VENDOR_REQUEST_JTAG_GET_STATE, H_extern jtag_get_state);
    (VENDOR_REQUEST_SET_LED_PATTERN, H_set_led_pattern) ]
  ++ (if has_debug_spi then
        [ (VENDOR_REQUEST_DEBUG_SPI_SEND, H_extern debug_spi_send);
          (VENDOR_REQUEST_DEBUG_SPI_READ_RESPONSE, H_extern debug_spi_get_response);
          (VENDOR_REQUEST_FLASH_SPI_SEND, H_extern flash_spi_send);
          (VENDOR_REQUEST_TAKE_FLASH_LINES, H_extern take_configuration_spi);
          (VENDOR_REQUEST_RELEASE_FLASH_LINES, H_extern release_configuration_spi) ]
      else [])
  ++ [ (VENDOR_REQUEST_GET_MS_DESCRIPTOR, H_get_ms_descriptor) ].

Definition data_table : list (Z * handler) :=
  [ (VENDOR_REQUEST_DEBUG_SPI_SEND, H_extern debug_spi_send_complete);
    (VENDOR_REQUEST_FLASH_SPI_SEND, H_extern flash_spi_send_complete) ].

Definition finish_table : list (Z * handler) :=
  [ (VENDOR_REQUEST_ALLOW_FPGA_TAKEOVER_USB, H_allow_fpga_takeover_usb_finish) ].

(** The handler a table binds to an opcode, if any. *)
Fixpoint lookup (table : list (Z * handler)) (opcode : Z) : option handler :=
  match table with
  | [] => None
  | (k, h) :: rest => if opcode =? k then Some h else lookup rest opcode
  end.

Definition present (table : list (Z * handler)) (opcode : Z) : Prop :=
  In opcode (map fst table).

(** ** The firmware on its hardware *)

(** What this layer takes from its build and from its collaborators. *)
Class Platform : Type := {
  (** State owned by the collaborators this layer only calls: the USB device
      controller, the JTAG and SPI engines, the FPGA control lines and the
      USB switch. *)
  collab : Type;

  (** [_BOARD_HAS_DEBUG_SPI] is defined. *)
  BOARD_HAS_DEBUG_SPI : bool;

  (** The values of the USB stack's [CONTROL_STAGE_...] constants. *)
  CONTROL_STAGE_SETUP : Z;
  CONTROL_STAGE_DATA : Z;
  CONTROL_STAGE_ACK : Z;

  (** What the transfer primitive does to the USB controller and whether it
      takes the transfer, for a port, request, buffer (NULL is [None]) and
      length. *)
  xfer_effect :
    Z -> tusb_control_request_t -> option (list Z) -> Z -> collab -> bool * collab;

  (** What the FPGA and USB-switch drivers do to the hardware. *)
  reconfiguration_effect : collab -> collab;
  offline_effect : collab -> collab;
  takeover_effect : collab -> collab
}.

(** The device: the LED scheduler's active blink pattern, and everything
    else. *)
Record device {P : Platform} : Type := mk_device {
  blink_pattern : Z;
  others : collab
}.
Arguments mk_device {P} _ _.

(** What a JTAG or SPI handler does to the device and what it returns. *)
Class Handlers {P : Platform} : Type :=
  extern_effect :
    extern_handler -> Z -> tusb_control_request_t -> device -> bool * device.

(** The result of running a C function: its return value, the device it
    leaves and the calls it made, oldest first. *)
Record outcome {P : Platform} (A : Type) : Type := mk_outcome {
  ret : A;
  dev : device;
  trace : list event
}.
Arguments mk_outcome {P A} _ _ _.
Arguments ret {P A} _.
Arguments dev {P A} _.
Arguments trace {P A} _.

Definition action {P : Platform} (A : Type) : Type := device -> outcome A.

Definition pure {P : Platform} {A : Type} (a : A) : action A :=
  fun d => mk_outcome a d [].

Definition bind {P : Platform} {A B : Type}
    (m : action A) (k : A -> action B) : action B :=
  fun d =>
    let r1 := m d in
    let r2 := k (ret r1) (dev r1) in
    mk_outcome (ret r2) (dev r2) (trace r1 ++ trace r2).

Notation "x <- m ;; k" := (bind m (fun x => k))
  (at level 61, m at next level, right associativity).
Notation "m ;; k" := (bind m (fun _ => k))
  (at level 61, right associativity).

(** Recording an observation. *)
Definition emit {P : Platform} (e : event) : action unit :=
  fun d => mk_outcome tt d [e].

(** A change made to the collaborators' state. *)
Definition on_others {P : Platform} (f : collab -> collab) : action unit :=
  fun d => mk_outcome tt (mk_device (blink_pattern d) (f (others d))) [].

Section Firmware.

Context {P : Platform} {X : Handlers}.

(** [tud_control_xfer(rhport, request, buffer, len)]. *)
Definition tud_control_xfer (rhport : Z) (request : tusb_control_request_t)
    (buffer : option (list Z)) (len : Z) : action bool :=
  fun d =>
    let r := xfer_effect rhport request buffer len (others d) in
    mk_outcome (fst r) (mk_device (blink_pattern d) (snd r))
               [Call_tud_control_xfer rhport request buffer len].

(** Modelled from the spec: [led_set_blink_pattern] belongs to the LED
    pattern scheduler (led.h), whose code is not at hand; it makes its
    argument the active LED pattern. *)
Definition led_set_blink_pattern (pattern : Z) : action unit :=
  fun d => mk_outcome tt (mk_device pattern (others d))
                      [Call_led_set_blink_pattern pattern].

Definition trigger_fpga_reconfiguration : action unit :=
  emit Call_trigger_fpga_reconfiguration ;; on_others reconfiguration_effect.

Definition force_fpga_offline : action unit :=
  emit Call_force_fpga_offline ;; on_others offline_effect.

Definition allow_fpga_takeover_usb : action unit :=
  emit Call_allow_fpga_takeover_usb ;; on_others takeover_effect.

(** A call to one of the JTAG or SPI handlers. *)
Definition handle_extern (e : extern_handler) (rhport : Z)
    (request : tusb_control_request_t) : action bool :=
  fun d =>
    let r := extern_effect e rhport request d in
    mk_outcome (fst r) (snd r) [Invoke (H_extern e) rhport request].

(** *** The handlers of vendor.c

    Each records its own entry first; the rest is the C body. *)

(** Request Microsoft Windows Compatible ID descriptor. *)
Definition handle_get_ms_descriptor (rhport : Z)
    (request : tusb_control_request_t) : action bool :=
  emit (Invoke H_get_ms_descriptor rhport request) ;;
  if wIndex request =? 0x0004 then
    tud_control_xfer rhport request (Some desc_ms_os_10) (sizeof desc_ms_os_10)
  else
    pure false.

(** Simple request that's used to identify the running firmware. *)
Definition handle_get_id_request (rhport : Z)
    (request : tusb_control_request_t) : action bool :=
  emit (Invoke H_get_id_request rhport request) ;;
  tud_control_xfer rhport request (Some description) (sizeof description).

(** Request that changes the active LED pattern. *)
Definition handle_set_led_pattern (rhport : Z)
    (request : tusb_control_request_t) : action bool :=
  emit (Invoke H_set_led_pattern rhport request) ;;
  led_set_blink_pattern (wValue request) ;;
  tud_control_xfer rhport request None 0.

Definition handle_trigger_fpga_reconfiguration (rhport : Z)
    (request : tusb_control_request_t) : action bool :=
  emit (Invoke H_trigger_fpga_reconfiguration rhport request) ;;
  trigger_fpga_reconfiguration ;;
  tud_control_xfer rhport request None 0.

(** Request that forces the FPGA offline, preventing bricking. *)
Definition handle_force_fpga_offline (rhport : Z)
    (request : tusb_control_request_t) : action bool :=
  emit (Invoke H_force_fpga_offline rhport request) ;;
  force_fpga_offline ;;
  tud_control_xfer rhport request None 0.

(** Request Apollo to allow FPGA takeover of the USB port. *)
Definition handle_allow_fpga_takeover_usb (rhport : Z)
    (request : tusb_control_request_t) : action bool :=
  emit (Invoke H_allow_fpga_takeover_usb rhport request) ;;
  tud_control_xfer rhport request None 0.

Definition handle_allow_fpga_takeover_usb_finish (rhport : Z)
    (request : tusb_control_request_t) : action bool :=
  emit (Invoke H_allow_fpga_takeover_usb_finish rhport request) ;;
  allow_fpga_takeover_usb ;;
  pure true.

(** *** The three stage dispatchers

    A [switch] on distinct case labels, tried in the order they are
    written; the debug-SPI cases exist only when the board has them. *)

(** Primary vendor request handler. *)
Definition handle_vendor_request_setup (rhport : Z)
    (request : tusb_control_request_t) : action bool :=
  let op := bRequest request in
  if op =? VENDOR_REQUEST_GET_ID then
    handle_get_id_request rhport request
  else if op =? VENDOR_REQUEST_TRIGGER_RECONFIGURATION then
    handle_trigger_fpga_reconfiguration rhport request
  else if op =? VENDOR_REQUEST_FORCE_FPGA_OFFLINE then
    handle_force_fpga_offline rhport request
  else if op =? VENDOR_REQUEST_ALLOW_FPGA_TAKEOVER_USB then
    handle_allow_fpga_takeover_usb rhport request
  (* JTAG requests *)
  else if op =? VENDOR_REQUEST_JTAG_CLEAR_OUT_BUFFER then
    handle_extern jtag_request_clear_out_buffer rhport request
  else if op =? VENDOR_REQUEST_JTAG_SET_OUT_BUFFER then
    handle_extern jtag_request_set_out_buffer rhport request
  else if op =? VENDOR_REQUEST_JTAG_GET_IN_BUFFER then
    handle_extern jtag_request_get_in_buffer rhport request
  else if op =? VENDOR_REQUEST_JTAG_SCAN then
    handle_extern jtag_request_scan rhport request
  else if op =? VENDOR_REQUEST_JTAG_RUN_CLOCK then
    handle_extern jtag_run_clock rhport request
  else if op =? VENDOR_REQUEST_JTAG_START then
    handle_extern jtag_start rhport request
  else if op =? VENDOR_REQUEST_JTAG_GOTO_STATE then
    handle_extern jtag_go_to_state rhport request
  else if op =? VENDOR_REQUEST_JTAG_STOP then
    handle_extern jtag_stop rhport request
  else if op =? VENDOR_REQUEST_JTAG_GET_STATE then
    handle_extern jtag_get_state rhport request
  (* LED control requests *)
  else if op =? VENDOR_REQUEST_SET_LED_PATTERN then
    handle_set_led_pattern rhport request
  (* Debug SPI requests *)
  else if BOARD_HAS_DEBUG_SPI && (op =? VENDOR_REQUEST_DEBUG_SPI_SEND) then
    handle_extern debug_spi_send rhport request
  else if BOARD_HAS_DEBUG_SPI && (op =? VENDOR_REQUEST_DEBUG_SPI_READ_RESPONSE) then
    handle_extern debug_spi_get_response rhport request
  else if BOARD_HAS_DEBUG_SPI && (op =? VENDOR_REQUEST_FLASH_SPI_SEND) then
    handle_extern flash_spi_send rhport request
  else if BOARD_HAS_DEBUG_SPI && (op =? VENDOR_REQUEST_TAKE_FLASH_LINES) then
    handle_extern take_configuration_spi rhport request
  else if BOARD_HAS_DEBUG_SPI && (op =? VENDOR_REQUEST_RELEASE_FLASH_LINES) then
    handle_extern release_configuration_spi rhport request
  (* the self-test case is commented out *)
  else if op =? VENDOR_REQUEST_GET_MS_DESCRIPTOR then
    handle_get_ms_descriptor rhport request
  else
    pure false.

(** Called when a vendor request is completed (the data stage). *)
Definition handle_vendor_request_complete (rhport : Z)
    (request : tusb_control_request_t) : action bool :=
  let op := bRequest request in
  if op =? VENDOR_REQUEST_DEBUG_SPI_SEND then
    handle_extern debug_spi_send_complete rhport request
  else if op =? VENDOR_REQUEST_FLASH_SPI_SEND then
    handle_extern flash_spi_send_complete rhport request
  else
    pure true.

(** Called when a vendor request is finished. *)
Definition handle_vendor_request_finish (rhport : Z)
    (request : tusb_control_request_t) : action bool :=
  let op := bRequest request in
  if op =? VENDOR_REQUEST_ALLOW_FPGA_TAKEOVER_USB then
    handle_allow_fpga_takeover_usb_finish rhport request
  else
    pure true.

Definition tud_vendor_control_xfer_cb (rhport : Z) (stage : Z)
    (request : tusb_control_request_t) : action bool :=
  if stage =? CONTROL_STAGE_SETUP then
    handle_vendor_request_setup rhport request
  else if stage =? CONTROL_STAGE_DATA then
    handle_vendor_request_complete rhport request
  else if stage =? CONTROL_STAGE_ACK then
    handle_vendor_request_finish rhport request
  else
    pure true.

(** *** Table-driven dispatch

    The function each handler name stands for, and the dispatch a stage
    table describes: run the handler bound to the opcode, or return the
    stage's default when there is none. *)

Definition run_handler (h : handler) : Z -> tusb_control_request_t -> action bool :=
  match h with
  | H_get_ms_descriptor => handle_get_ms_descriptor
  | H_get_id_request => handle_get_id_request
  | H_set_led_pattern => handle_set_led_pattern
  | H_trigger_fpga_reconfiguration => handle_trigger_fpga_reconfiguration
  | H_force_fpga_offline => handle_force_fpga_offline
  | H_allow_fpga_takeover_usb => handle_allow_fpga_takeover_usb
  | H_allow_fpga_takeover_usb_finish => handle_allow_fpga_takeover_usb_finish
  | H_extern e => handle_extern e
  end.

Definition dispatch (table : list (Z * handler)) (default : bool) (rhport : Z)
    (request : tusb_control_request_t) : action bool :=
  match lookup table (bRequest request) with
  | Some h => run_handler h rhport request
  | None => pure default
  end.

End Firmware.

(** ** A concrete board

    A board without debug SPI whose collaborators keep no state and take
    every transfer; the stage constants are numbered 1, 2, 3. *)

Definition bench : Platform := {|
  collab := unit;
  BOARD_HAS_DEBUG_SPI := false;
  CONTROL_STAGE_SETUP := 1;
  CONTROL_STAGE_DATA := 2;
  CONTROL_STAGE_ACK := 3;
  xfer_effect := fun _ _ _ _ c => (true, c);
  reconfiguration_effect := fun c => c;
  offline_effect := fun c => c;
  takeover_effect := fun c => c
|}.

Definition bench_handlers : @Handlers bench :=
  fun _ _ _ d => (true, d).

(** The bench when powered up. *)
Definition bench_device : @device bench := @mk_device bench 0 tt.

(** The same board while its USB controller refuses every transfer. *)
Definition busy_bench : Platform := {|
  collab := unit;
  BOARD_HAS_DEBUG_SPI := false;
  CONTROL_STAGE_SETUP := 1;
  CONTROL_STAGE_DATA := 2;
  CONTROL_STAGE_ACK := 3;
  xfer_effect := fun _ _ _ _ c => (false, c);
  reconfiguration_effect := fun c => c;
  offline_effect := fun c => c;
  takeover_effect := fun c => c
|}.

Definition busy_handlers : @Handlers busy_bench :=
  fun _ _ _ d => (false, d).

(** The dispatchers of the bench. *)
Abbreviation bench_setup := (@handle_vendor_request_setup bench bench_handlers).
Abbreviation bench_complete := (@handle_vendor_request_complete bench bench_handlers).
Abbreviation bench_finish := (@handle_vendor_request_finish bench).
Abbreviation bench_cb := (@tud_vendor_control_xfer_cb bench bench_handlers).

(** A vendor request to the device (bmRequestType 0x40 is host-to-device,
    0xc0 device-to-host). *)
Definition vendor_out (opcode value index : Z) : tusb_control_request_t :=
  mk_request 0x40 opcode value index 0.

Definition vendor_in (opcode value index length : Z) : tusb_control_request_t :=
  mk_request 0xc0 opcode value index length.

(** The enumerators of the vendor-request enum, in the order they are
    written. *)
Definition vendor_requests : list Z :=
  [ VENDOR_REQUEST_GET_ID; VENDOR_REQUEST_SET_LED_PATTERN;
    VENDOR_REQUEST_JTAG_START; VENDOR_REQUEST_JTAG_STOP;
    VENDOR_REQUEST_JTAG_CLEAR_OUT_BUFFER; VENDOR_REQUEST_JTAG_SET_OUT_BUFFER;
    VENDOR_REQUEST_JTAG_GET_IN_BUFFER; VENDOR_REQUEST_JTAG_SCAN;
    VENDOR_REQUEST_JTAG_RUN_CLOCK; VENDOR_REQUEST_JTAG_GOTO_STATE;
    VENDOR_REQUEST_JTAG_GET_STATE; VENDOR_REQUEST_JTAG_BULK_SCAN;
    VENDOR_REQUEST_TRIGGER_RECONFIGURATION; VENDOR_REQUEST_FORCE_FPGA_OFFLINE;
    VENDOR_REQUEST_ALLOW_FPGA_TAKEOVER_USB;
    VENDOR_REQUEST_DEBUG_SPI_SEND; VENDOR_REQUEST_DEBUG_SPI_READ_RESPONSE;
    VENDOR_REQUEST_FLASH_SPI_SEND; VENDOR_REQUEST_TAKE_FLASH_LINES;
    VENDOR_REQUEST_RELEASE_FLASH_LINES;
    VENDOR_REQUEST_GET_RAIL_VOLTAGE;
    VENDOR_REQUEST_GET_MS_DESCRIPTOR ].

(** The patterns passed to [led_set_blink_pattern] by the calls made from
    vendor.c during a run. *)
Fixpoint led_calls (t : list event) : list Z :=
  match t with
  | [] => []
  | Call_led_set_blink_pattern pattern :: t' => pattern :: led_calls t'
  | _ :: t' => led_calls t'
  end.

(** The setup [switch] does not pass the opcode on to a JTAG or SPI handler:
    it runs a handler of vendor.c, or none. *)
Definition setup_local (has_debug_spi : bool) (opcode : Z) : bool :=
  match lookup (setup_table has_debug_spi) opcode with
  | Some (H_extern _) => false
  | _ => true
  end.

(** Going through the cases of a [switch] against its table, one label at a
    time. *)
Ltac switch_cases :=
  repeat match goal with
         | |- context [?a =? ?b] => destruct (a =? b); [reflexivity |]
         end;
  reflexivity.

(** * Properties *)

(** ** The tables *)

Lemma lookup_In table opcode h :
  lookup table opcode = Some h -> In (opcode, h) table.
Proof.
  induction table as [|[k h'] rest IH]; simpl; [discriminate|].
  destruct (Z.eqb_spec opcode k) as [->|Hne]; intros E.
  - injection E as ->. now left.
  - right. now apply IH.
Qed.

Lemma lookup_None table opcode :
  lookup table opcode = None <-> ~ present table opcode.
Proof.
  unfold present.
  induction table as [|[k h] rest IH]; simpl; [tauto|].
  destruct (Z.eqb_spec opcode k) as [->|Hne]; split.
  - discriminate.
  - intros Hn. exfalso. apply Hn. now left.
  - intros E [Hk|Hin]; [congruence|]. now apply IH in E.
  - intros Hn. apply IH. tauto.
Qed.

Lemma lookup_present table opcode :
  present table opcode <-> exists h, lookup table opcode = Some h.
Proof.
  destruct (lookup table opcode) as [h|] eqn:E; split.
  - intros _. now exists h.
  - intros _. unfold present. apply in_map_iff. exists (opcode, h).
    split; [reflexivity|]. now apply lookup_In.
  - intros Hp. apply lookup_None in E. contradiction.
  - intros [h Hh]. discriminate.
Qed.

(** No opcode is a case label twice, and no handler is called from two
    cases. *)
Lemma setup_table_NoDup spi :
  NoDup (map fst (setup_table spi)) /\ NoDup (map snd (setup_table spi)).
Proof.
  destruct spi; split; cbn;
    repeat (constructor; [cbn; intuition (discriminate || congruence)|]);
    constructor.
Qed.

Section Properties.

Context {P : Platform} {X : Handlers}.

(** ** Handlers *)

(** Running a handler enters that handler and no other. *)
Lemma run_handler_invoked h rhport request d :
  invoked (trace (run_handler h rhport request d)) = [h].
Proof.
  destruct h; cbn; try reflexivity.
  destruct (wIndex request =? 4); reflexivity.
Qed.

Lemma run_handler_enters h rhport request d :
  hd_error (trace (run_handler h rhport request d)) = Some (Invoke h rhport request).
Proof. destruct h; reflexivity. Qed.

(** Only the finish handler of the takeover request calls
    [allow_fpga_takeover_usb()], and it does so once. *)
Lemma run_handler_takeover h rhport request d :
  takeover_calls (trace (run_handler h rhport request d)) =
  match h with H_allow_fpga_takeover_usb_finish => 1%nat | _ => 0%nat end.
Proof.
  destruct h; cbn; try reflexivity.
  destruct (wIndex request =? 4); reflexivity.
Qed.

(** ** The dispatchers agree with their tables

    Each [switch] runs the handler its table binds to the opcode, and
    returns the stage's default when the table binds none. *)

Lemma setup_dispatch rhport request :
  handle_vendor_request_setup rhport request =
  dispatch (setup_table BOARD_HAS_DEBUG_SPI) false rhport request.
Proof.
  unfold handle_vendor_request_setup, dispatch, setup_table.
  destruct BOARD_HAS_DEBUG_SPI; cbn [app lookup andb]; switch_cases.
Qed.

Lemma complete_dispatch rhport request :
  handle_vendor_request_complete rhport request =
  dispatch data_table true rhport request.
Proof.
  unfold handle_vendor_request_complete, dispatch, data_table.
  cbn [lookup]; switch_cases.
Qed.

Lemma finish_dispatch rhport request :
  handle_vendor_request_finish rhport request =
  dispatch finish_table true rhport request.
Proof.
  unfold handle_vendor_request_finish, dispatch, finish_table.
  cbn [lookup]; switch_cases.
Qed.

Lemma setup_bound rhport request h :
  lookup (setup_table BOARD_HAS_DEBUG_SPI) (bRequest request) = Some h ->
  handle_vendor_request_setup rhport request = run_handler h rhport request.
Proof. intros E. rewrite setup_dispatch. unfold dispatch. now rewrite E. Qed.

Lemma setup_unbound rhport request :
  lookup (setup_table BOARD_HAS_DEBUG_SPI) (bRequest request) = None ->
  handle_vendor_request_setup rhport request = pure false.
Proof. intros E. rewrite setup_dispatch. unfold dispatch. now rewrite E. Qed.

(** Which opcodes the setup table binds does not depend on the board, apart
    from the debug-SPI group. *)
Lemma setup_lookup_core opcode :
  ~ (0x50 <= opcode <= 0x54) ->
  lookup (setup_table BOARD_HAS_DEBUG_SPI) opcode = lookup (setup_table false) opcode.
Proof.
  intros Hout. destruct BOARD_HAS_DEBUG_SPI; [|reflexivity].
  unfold setup_table; cbn [app lookup].
  repeat match goal with
         | |- context [opcode =? ?k] =>
             destruct (Z.eqb_spec opcode k) as [->|_];
             [first [reflexivity | exfalso; apply Hout; cbv; intuition discriminate] |]
         end.
  reflexivity.
Qed.

(** The takeover opcode is bound in the setup table whatever the board. *)
Lemma setup_lookup_takeover :
  lookup (setup_table BOARD_HAS_DEBUG_SPI) VENDOR_REQUEST_ALLOW_FPGA_TAKEOVER_USB
  = Some H_allow_fpga_takeover_usb.
Proof. now rewrite setup_lookup_core by (cbv; intuition discriminate). Qed.

(** ** The takeover handoff happens at the finish stage only *)

(** No case of the setup or data [switch] calls the finish handler of the
    takeover request. *)
Lemma finish_handler_not_in_setup_or_data opcode :
  lookup (setup_table BOARD_HAS_DEBUG_SPI) opcode <> Some H_allow_fpga_takeover_usb_finish /\
  lookup data_table opcode <> Some H_allow_fpga_takeover_usb_finish.
Proof.
  split; intros E; apply lookup_In in E;
    [destruct BOARD_HAS_DEBUG_SPI|]; cbn in E;
    repeat (destruct E as [E|E]; [discriminate E|]); exact E.
Qed.

(** Whatever the request, the setup and data dispatchers make no call to
    [allow_fpga_takeover_usb()]. *)
Lemma no_takeover_before_finish rhport request d :
  takeover_calls (trace (handle_vendor_request_setup rhport request d)) = 0%nat /\
  takeover_calls (trace (handle_vendor_request_complete rhport request d)) = 0%nat.
Proof.
  rewrite setup_dispatch, complete_dispatch. unfold dispatch.
  destruct (finish_handler_not_in_setup_or_data (bRequest request)) as [Hs Hd].
  split.
  - destruct (lookup (setup_table _) _) as [h|]; [|reflexivity].
    rewrite run_handler_takeover. destruct h; congruence.
  - destruct (lookup data_table _) as [h|]; [|reflexivity].
    rewrite run_handler_takeover. destruct h; congruence.
Qed.

(** C1.  For a request with the takeover opcode 0xC2, setup-stage dispatch
    enters [handle_allow_fpga_takeover_usb] and only queues the zero-length
    acknowledgment, data-stage dispatch does nothing, and finish-stage
    dispatch enters the finish handler and calls [allow_fpga_takeover_usb()]
    exactly once, returning true.  Through [tud_vendor_control_xfer_cb], whose
    stage labels are distinct, the call is made once when the stage is
    CONTROL_STAGE_ACK and not at all at any other stage. *)
Theorem takeover_only_at_finish rhport stage request d :
  bRequest request = VENDOR_REQUEST_ALLOW_FPGA_TAKEOVER_USB ->
  NoDup [CONTROL_STAGE_SETUP; CONTROL_STAGE_DATA; CONTROL_STAGE_ACK] ->
  (trace (handle_vendor_request_setup rhport request d) =
     [Invoke H_allow_fpga_takeover_usb rhport request;
      Call_tud_control_xfer rhport request None 0] /\
   takeover_calls (trace (handle_vendor_request_setup rhport request d)) = 0%nat) /\
  (trace (handle_vendor_request_complete rhport request d) = [] /\
   takeover_calls (trace (handle_vendor_request_complete rhport request d)) = 0%nat) /\
  (trace (handle_vendor_request_finish rhport request d) =
     [Invoke H_allow_fpga_takeover_usb_finish rhport request;
      Call_allow_fpga_takeover_usb] /\
   takeover_calls (trace (handle_vendor_request_finish rhport request d)) = 1%nat /\
   ret (handle_vendor_request_finish rhport request d) = true) /\
  takeover_calls (trace (tud_vendor_control_xfer_cb rhport stage request d)) =
    (if stage =? CONTROL_STAGE_ACK then 1%nat else 0%nat).
Proof.
  intros Hop Hstages.
  assert (Hsetup : handle_vendor_request_setup rhport request d =
                   handle_allow_fpga_takeover_usb rhport request d).
  { rewrite setup_dispatch. unfold dispatch.
    rewrite Hop, setup_lookup_takeover. reflexivity. }
  assert (Hdata : handle_vendor_request_complete rhport request d = pure true d).
  { rewrite complete_dispatch. unfold dispatch. rewrite Hop. reflexivity. }
  assert (Hfinish : handle_vendor_request_finish rhport request d =
                    handle_allow_fpga_takeover_usb_finish rhport request d).
  { rewrite finish_dispatch. unfold dispatch. rewrite Hop. reflexivity. }
  assert (Hne : CONTROL_STAGE_SETUP <> CONTROL_STAGE_ACK /\
                CONTROL_STAGE_DATA <> CONTROL_STAGE_ACK).
  { inversion Hstages as [|a l Hn1 Hnd1]; subst.
    inversion Hnd1 as [|b l' Hn2 Hnd2]; subst.
    cbn in Hn1, Hn2. split; intros E; rewrite E in *; tauto. }
  destruct Hne as [Hsa Hda].
  repeat split; rewrite ?Hsetup, ?Hdata, ?Hfinish; try reflexivity.
  unfold tud_vendor_control_xfer_cb.
  destruct (Z.eqb_spec stage CONTROL_STAGE_SETUP) as [->|_].
  { rewrite Hsetup. destruct (Z.eqb_spec CONTROL_STAGE_SETUP CONTROL_STAGE_ACK);
      [contradiction | reflexivity]. }
  destruct (Z.eqb_spec stage CONTROL_STAGE_DATA) as [->|_].
  { rewrite Hdata. destruct (Z.eqb_spec CONTROL_STAGE_DATA CONTROL_STAGE_ACK);
      [contradiction | reflexivity]. }
  destruct (Z.eqb_spec stage CONTROL_STAGE_ACK) as [->|_].
  - rewrite Hfinish. reflexivity.
  - reflexivity.
Qed.

(** ** The OS descriptor and the identity string *)

(** C2, as the code has it.  For a request with the OS-descriptor opcode
    0xEE, setup-stage dispatch enters [handle_get_ms_descriptor].  When
    wIndex is 0x0004 it
    hands the transfer primitive the 40 bytes of [desc_ms_os_10], byte for
    byte, with length 40, in its one call, and its result is the primitive's
    acceptance of that transfer.  For any other wIndex it returns false,
    hands over nothing and leaves the device as it was. *)
Theorem ms_descriptor_served_at_index_4 rhport request d :
  bRequest request = VENDOR_REQUEST_GET_MS_DESCRIPTOR ->
  (wIndex request = 0x0004 ->
     trace (handle_vendor_request_setup rhport request d) =
       [Invoke H_get_ms_descriptor rhport request;
        Call_tud_control_xfer rhport request (Some desc_ms_os_10) 40] /\
     desc_ms_os_10 =
       [40; 0; 0; 0;  0; 1;  4; 0;  1;  0; 0; 0; 0; 0; 0; 0;
        2;  1;  87; 73; 78; 85; 83; 66; 0; 0;  0; 0; 0; 0; 0; 0; 0; 0;
        0; 0; 0; 0; 0; 0] /\
     List.length desc_ms_os_10 = 40%nat /\
     ret (handle_vendor_request_setup rhport request d) =
       fst (xfer_effect rhport request (Some desc_ms_os_10) 40 (others d))) /\
  (wIndex request <> 0x0004 ->
     ret (handle_vendor_request_setup rhport request d) = false /\
     dev (handle_vendor_request_setup rhport request d) = d /\
     trace (handle_vendor_request_setup rhport request d) =
       [Invoke H_get_ms_descriptor rhport request]).
Proof.
  intros Hop.
  assert (E : handle_vendor_request_setup rhport request =
              handle_get_ms_descriptor rhport request).
  { apply (setup_bound rhport request H_get_ms_descriptor).
    rewrite Hop, setup_lookup_core by (cbv; intuition discriminate).
    reflexivity. }
  rewrite E. unfold handle_get_ms_descriptor. split.
  - intros ->. cbn. repeat split; reflexivity.
  - intros Hne. cbn. destruct (Z.eqb_spec (wIndex request) 4) as [Heq|_];
      [contradiction|]. cbn. destruct d; repeat split; reflexivity.
Qed.

(** C3, as the code has it.  For a request with the identify opcode 0xA0,
    setup-stage dispatch enters [handle_get_id_request] and hands the
    transfer primitive the identity string with its terminating NUL, with
    the length [sizeof(description)]: the 19 characters of
    "Apollo Debug Module" and the NUL, 20 bytes.  Its result is the
    primitive's acceptance of that transfer. *)
Theorem identify_payload rhport request d :
  bRequest request = VENDOR_REQUEST_GET_ID ->
  trace (handle_vendor_request_setup rhport request d) =
    [Invoke H_get_id_request rhport request;
     Call_tud_control_xfer rhport request (Some description) (sizeof description)] /\
  description =
    [ 65; 112; 111; 108; 108; 111;  32;
      68; 101;  98; 117; 103;  32;
      77; 111; 100; 117; 108; 101;  0] /\
  description = map char (list_ascii_of_string "Apollo Debug Module") ++ [0] /\
  sizeof description = 20 /\
  ret (handle_vendor_request_setup rhport request d) =
    fst (xfer_effect rhport request (Some description) (sizeof description) (others d)).
Proof.
  intros Hop.
  assert (E : handle_vendor_request_setup rhport request =
              handle_get_id_request rhport request).
  { apply (setup_bound rhport request H_get_id_request).
    rewrite Hop, setup_lookup_core by (cbv; intuition discriminate).
    reflexivity. }
  rewrite E. repeat split; reflexivity.
Qed.

(** C10.  The descriptor is consistent with the way it is served: the
    little-endian length in its first four bytes is 0x28 = 40, which is
    [sizeof(desc_ms_os_10)] and the length handed to the transfer primitive;
    the little-endian wIndex in its bytes 6 and 7 is 0x0004, and the
    provider hands the descriptor over exactly for the requests whose wIndex
    is that value. *)
Theorem ms_descriptor_consistent rhport request d :
  le_value (field 0 4 desc_ms_os_10) = 0x0028 /\
  le_value (field 0 4 desc_ms_os_10) = sizeof desc_ms_os_10 /\
  le_value (field 6 2 desc_ms_os_10) = 0x0004 /\
  submitted (trace (handle_get_ms_descriptor rhport request d)) =
    (if wIndex request =? le_value (field 6 2 desc_ms_os_10)
     then [(Some desc_ms_os_10, le_value (field 0 4 desc_ms_os_10))]
     else []).
Proof.
  repeat split; try reflexivity.
  unfold handle_get_ms_descriptor.
  change (le_value (field 6 2 desc_ms_os_10)) with 4.
  cbn. destruct (wIndex request =? 4); reflexivity.
Qed.

(** ** Opcodes a stage does not serve *)

(** C4.  A request whose opcode is no case label of the setup [switch] is
    rejected at the setup stage: the dispatch returns false, enters no
    handler, makes no call and leaves the device untouched.  The self-test
    opcode 0xE0 is such an opcode on every board, and so are the debug-SPI
    opcodes 0x50 to 0x54 on a board without debug SPI. *)
Theorem setup_rejects_unbound rhport request d :
  (lookup (setup_table BOARD_HAS_DEBUG_SPI) (bRequest request) = None ->
   handle_vendor_request_setup rhport request d = mk_outcome false d []) /\
  lookup (setup_table BOARD_HAS_DEBUG_SPI) 0xe0 = None /\
  (BOARD_HAS_DEBUG_SPI = false ->
   forall opcode, 0x50 <= opcode <= 0x54 ->
   lookup (setup_table BOARD_HAS_DEBUG_SPI) opcode = None).
Proof.
  split; [|split].
  - intros E. now rewrite setup_unbound.
  - now rewrite setup_lookup_core by (cbv; intuition discriminate).
  - intros -> opcode Hrange.
    assert (Hcases : opcode = 0x50 \/ opcode = 0x51 \/ opcode = 0x52 \/
                     opcode = 0x53 \/ opcode = 0x54) by lia.
    destruct Hcases as [->|[->|[->|[->| ->]]]]; reflexivity.
Qed.

(** C8.  The self-test opcode 0xE0 is defined but its case is commented
    out: a request carrying it is rejected at the setup stage, with no
    handler entered, no call made and the device untouched. *)
Theorem rail_voltage_rejected rhport request d :
  bRequest request = VENDOR_REQUEST_GET_RAIL_VOLTAGE ->
  VENDOR_REQUEST_GET_RAIL_VOLTAGE = 0xe0 /\
  handle_vendor_request_setup rhport request d = mk_outcome false d [] /\
  invoked (trace (handle_vendor_request_setup rhport request d)) = [].
Proof.
  intros Hop.
  assert (E : handle_vendor_request_setup rhport request = pure false).
  { apply setup_unbound.
    now rewrite Hop, setup_lookup_core by (cbv; intuition discriminate). }
  rewrite E. repeat split.
Qed.

(** C6.  A request whose opcode is no case label of the data-stage [switch]
    is accepted there with nothing done: the dispatch returns true, enters no
    handler, makes no call and leaves the device untouched.  The same holds
    at the finish stage for an opcode that is no case label of the finish
    [switch]. *)
Theorem unbound_data_and_finish_accept rhport request d :
  (lookup data_table (bRequest request) = None ->
   handle_vendor_request_complete rhport request d = mk_outcome true d []) /\
  (lookup finish_table (bRequest request) = None ->
   handle_vendor_request_finish rhport request d = mk_outcome true d []).
Proof.
  split; intros E.
  - rewrite complete_dispatch. unfold dispatch. now rewrite E.
  - rewrite finish_dispatch. unfold dispatch. now rewrite E.
Qed.

(** C9.  Finish-stage dispatch returns true for every request, the
    takeover request included, whose finish handler returns true whatever
    the request; and [tud_vendor_control_xfer_cb] returns true, with nothing
    done, for a stage that is none of CONTROL_STAGE_SETUP, CONTROL_STAGE_DATA
    and CONTROL_STAGE_ACK. *)
Theorem finish_never_rejects rhport stage request d :
  ret (handle_vendor_request_finish rhport request d) = true /\
  ret (handle_allow_fpga_takeover_usb_finish rhport request d) = true /\
  (stage <> CONTROL_STAGE_SETUP ->
   stage <> CONTROL_STAGE_DATA ->
   stage <> CONTROL_STAGE_ACK ->
   tud_vendor_control_xfer_cb rhport stage request d = mk_outcome true d []).
Proof.
  split; [|split].
  - unfold handle_vendor_request_finish.
    destruct (_ =? _); reflexivity.
  - reflexivity.
  - intros Hs Hd Ha. unfold tud_vendor_control_xfer_cb.
    apply Z.eqb_neq in Hs, Hd, Ha. now rewrite Hs, Hd, Ha.
Qed.

(** ** Opcodes the setup stage serves *)

(** C5.  The setup [switch] has no opcode as a case label twice and calls
    no handler from two cases; and for a request whose opcode the setup table
    binds to a handler, setup-stage dispatch is a run of that handler: it
    enters that handler first, and enters no handler besides, so exactly one
    handler, once. *)
Theorem setup_invokes_bound_handler rhport request d h :
  lookup (setup_table BOARD_HAS_DEBUG_SPI) (bRequest request) = Some h ->
  (NoDup (map fst (setup_table BOARD_HAS_DEBUG_SPI)) /\
   NoDup (map snd (setup_table BOARD_HAS_DEBUG_SPI))) /\
  In (bRequest request, h) (setup_table BOARD_HAS_DEBUG_SPI) /\
  handle_vendor_request_setup rhport request d = run_handler h rhport request d /\
  hd_error (trace (handle_vendor_request_setup rhport request d)) =
    Some (Invoke h rhport request) /\
  invoked (trace (handle_vendor_request_setup rhport request d)) = [h].
Proof.
  intros E. split; [apply setup_table_NoDup|].
  split; [now apply lookup_In|].
  rewrite (setup_bound rhport request h E).
  split; [reflexivity|]. split.
  - apply run_handler_enters.
  - apply run_handler_invoked.
Qed.

(** ** The LED pattern *)

(** C7.  Two setup-stage dispatches of LED-pattern requests (opcode 0xA1)
    with the same wValue leave the active blink pattern as one dispatch
    does: it is that wValue. *)
Theorem led_pattern_idempotent rhport request request' d :
  bRequest request = VENDOR_REQUEST_SET_LED_PATTERN ->
  bRequest request' = VENDOR_REQUEST_SET_LED_PATTERN ->
  wValue request' = wValue request ->
  blink_pattern
    (dev (handle_vendor_request_setup rhport request'
            (dev (handle_vendor_request_setup rhport request d)))) =
  blink_pattern (dev (handle_vendor_request_setup rhport request d)) /\
  blink_pattern (dev (handle_vendor_request_setup rhport request d)) =
  wValue request.
Proof.
  intros Hop Hop' Hv.
  assert (E : forall r, bRequest r = VENDOR_REQUEST_SET_LED_PATTERN ->
                        handle_vendor_request_setup rhport r =
                        handle_set_led_pattern rhport r).
  { intros r Hr. apply (setup_bound rhport r H_set_led_pattern).
    now rewrite Hr, setup_lookup_core by (cbv; intuition discriminate). }
  rewrite (E request Hop), (E request' Hop'). cbn. now split.
Qed.

End Properties.

(** * The bench

    The dispatchers run on the concrete board. *)

Example bench_identify :
  trace (bench_setup 0 (vendor_in 0xa0 0 0 64) bench_device) =
  [Invoke H_get_id_request 0 (vendor_in 0xa0 0 0 64);
   Call_tud_control_xfer 0 (vendor_in 0xa0 0 0 64) (Some description) 20].
Proof. reflexivity. Qed.

(** The result of a serving handler is the transfer primitive's: the
    descriptor is handed over all the same when the controller refuses it. *)
Example busy_bench_ms_descriptor :
  let r := @handle_vendor_request_setup busy_bench busy_handlers 0
             (vendor_in 0xee 0 4 40) (@mk_device busy_bench 0 tt) in
  ret r = false /\ submitted (trace r) = [(Some desc_ms_os_10, 40)].
Proof. split; reflexivity. Qed.

Example bench_led :
  blink_pattern (dev (bench_setup 0 (vendor_out 0xa1 3 0) bench_device)) = 3.
Proof. reflexivity. Qed.

Example bench_debug_spi_absent :
  bench_setup 0 (vendor_out 0x50 0 0) bench_device = mk_outcome false bench_device [].
Proof. reflexivity. Qed.

Example bench_transfer_of_takeover :
  map (fun stage => takeover_calls (trace (bench_cb 0 stage (vendor_out 0xc2 0 0) bench_device)))
      [1; 2; 3] = [0; 0; 1]%nat.
Proof. reflexivity. Qed.

(** The takeover request on the bench, at the acknowledgment stage. *)
Lemma takeover_only_at_finish_witness :
  bRequest (vendor_out 0xc2 0 0) = VENDOR_REQUEST_ALLOW_FPGA_TAKEOVER_USB /\
  NoDup [@CONTROL_STAGE_SETUP bench; @CONTROL_STAGE_DATA bench; @CONTROL_STAGE_ACK bench] /\
  takeover_calls (trace (bench_setup 0 (vendor_out 0xc2 0 0) bench_device)) = 0%nat /\
  takeover_calls (trace (bench_cb 0 3 (vendor_out 0xc2 0 0) bench_device)) = 1%nat.
Proof.
  assert (Hstages : NoDup [@CONTROL_STAGE_SETUP bench; @CONTROL_STAGE_DATA bench;
                           @CONTROL_STAGE_ACK bench]).
  { repeat constructor; cbn; intuition discriminate. }
  split; [reflexivity|]. split; [exact Hstages|].
  pose proof (@takeover_only_at_finish bench bench_handlers 0 3
                (vendor_out 0xc2 0 0) bench_device eq_refl Hstages) as W.
  split; [exact (proj2 (proj1 W)) | exact (proj2 (proj2 (proj2 W)))].
Defined.

(** The OS-descriptor request with wIndex 4, which the bench accepts. *)
Lemma ms_descriptor_served_at_index_4_witness :
  bRequest (vendor_in 0xee 0 4 40) = VENDOR_REQUEST_GET_MS_DESCRIPTOR /\
  wIndex (vendor_in 0xee 0 4 40) = 0x0004 /\
  trace (bench_setup 0 (vendor_in 0xee 0 4 40) bench_device) =
    [Invoke H_get_ms_descriptor 0 (vendor_in 0xee 0 4 40);
     Call_tud_control_xfer 0 (vendor_in 0xee 0 4 40) (Some desc_ms_os_10) 40] /\
  ret (bench_setup 0 (vendor_in 0xee 0 4 40) bench_device) = true.
Proof.
  split; [reflexivity|]. split; [reflexivity|].
  pose proof (proj1 (@ms_descriptor_served_at_index_4 bench bench_handlers 0
                       (vendor_in 0xee 0 4 40) bench_device eq_refl) eq_refl) as W.
  split; [exact (proj1 W) | exact (proj2 (proj2 (proj2 W)))].
Defined.

(** C2 as written does not hold: a request in range with the OS-descriptor
    opcode and wIndex 4 is not accepted while the USB controller refuses the
    transfer; the descriptor is handed over and the dispatch returns
    false. *)
Lemma ms_descriptor_refused_by_busy_controller :
  request_in_range (vendor_in 0xee 0 4 40) /\
  bRequest (vendor_in 0xee 0 4 40) = VENDOR_REQUEST_GET_MS_DESCRIPTOR /\
  wIndex (vendor_in 0xee 0 4 40) = 0x0004 /\
  ret (@handle_vendor_request_setup busy_bench busy_handlers 0
         (vendor_in 0xee 0 4 40) (@mk_device busy_bench 0 tt)) <> true.
Proof.
  split; [unfold request_in_range; cbn; lia|].
  split; [reflexivity|]. split; [reflexivity|].
  cbn. discriminate.
Qed.

(** The identify request on the bench. *)
Lemma identify_payload_witness :
  bRequest (vendor_in 0xa0 0 0 64) = VENDOR_REQUEST_GET_ID /\
  trace (bench_setup 0 (vendor_in 0xa0 0 0 64) bench_device) =
    [Invoke H_get_id_request 0 (vendor_in 0xa0 0 0 64);
     Call_tud_control_xfer 0 (vendor_in 0xa0 0 0 64) (Some description)
                           (sizeof description)].
Proof.
  split; [reflexivity|].
  exact (proj1 (@identify_payload bench bench_handlers 0
                  (vendor_in 0xa0 0 0 64) bench_device eq_refl)).
Defined.

(** C3 as written does not hold: on the bench the identify request, a
    request in range, is answered with [sizeof(description)] bytes, and that
    is not 18. *)
Lemma identify_payload_is_not_18_bytes :
  request_in_range (vendor_in 0xa0 0 0 64) /\
  ~ (submitted (trace (bench_setup 0 (vendor_in 0xa0 0 0 64) bench_device)) =
       [(Some description, sizeof description)] /\
     sizeof description = 18).
Proof.
  split.
  - unfold request_in_range; cbn; lia.
  - intros [_ H18]. discriminate H18.
Qed.

(** A debug-SPI request on the bench, which has no debug SPI. *)
Lemma setup_rejects_unbound_witness :
  lookup (setup_table (@BOARD_HAS_DEBUG_SPI bench)) (bRequest (vendor_out 0x53 0 0)) = None /\
  bench_setup 0 (vendor_out 0x53 0 0) bench_device = mk_outcome false bench_device [].
Proof.
  split; [reflexivity|].
  exact (proj1 (@setup_rejects_unbound bench bench_handlers 0
                  (vendor_out 0x53 0 0) bench_device) eq_refl).
Defined.

(** The self-test request on the bench. *)
Lemma rail_voltage_rejected_witness :
  bRequest (vendor_in 0xe0 0 0 2) = VENDOR_REQUEST_GET_RAIL_VOLTAGE /\
  bench_setup 0 (vendor_in 0xe0 0 0 2) bench_device = mk_outcome false bench_device [].
Proof.
  split; [reflexivity|].
  exact (proj1 (proj2 (@rail_voltage_rejected bench bench_handlers 0
                         (vendor_in 0xe0 0 0 2) bench_device eq_refl))).
Defined.

(** The identify request at the data and finish stages. *)
Lemma unbound_data_and_finish_accept_witness :
  lookup data_table (bRequest (vendor_in 0xa0 0 0 64)) = None /\
  lookup finish_table (bRequest (vendor_in 0xa0 0 0 64)) = None /\
  bench_complete 0 (vendor_in 0xa0 0 0 64) bench_device = mk_outcome true bench_device [] /\
  bench_finish 0 (vendor_in 0xa0 0 0 64) bench_device = mk_outcome true bench_device [].
Proof.
  split; [reflexivity|]. split; [reflexivity|].
  pose proof (@unbound_data_and_finish_accept bench bench_handlers 0
                (vendor_in 0xa0 0 0 64) bench_device) as W.
  split; [exact (proj1 W eq_refl) | exact (proj2 W eq_refl)].
Defined.

(** The callback at stage 0, the stack's idle stage. *)
Lemma finish_never_rejects_witness :
  0 <> @CONTROL_STAGE_SETUP bench /\
  0 <> @CONTROL_STAGE_DATA bench /\
  0 <> @CONTROL_STAGE_ACK bench /\
  bench_cb 0 0 (vendor_out 0xc2 0 0) bench_device = mk_outcome true bench_device [].
Proof.
  assert (Hs : 0 <> @CONTROL_STAGE_SETUP bench) by (cbn; lia).
  assert (Hd : 0 <> @CONTROL_STAGE_DATA bench) by (cbn; lia).
  assert (Ha : 0 <> @CONTROL_STAGE_ACK bench) by (cbn; lia).
  repeat (split; [assumption|]).
  exact (proj2 (proj2 (@finish_never_rejects bench bench_handlers 0 0
                         (vendor_out 0xc2 0 0) bench_device)) Hs Hd Ha).
Defined.

(** A JTAG scan request on the bench. *)
Lemma setup_invokes_bound_handler_witness :
  lookup (setup_table (@BOARD_HAS_DEBUG_SPI bench)) (bRequest (vendor_out 0xb3 16 0)) =
    Some (H_extern jtag_request_scan) /\
  invoked (trace (bench_setup 0 (vendor_out 0xb3 16 0) bench_device)) =
    [H_extern jtag_request_scan].
Proof.
  split; [reflexivity|].
  exact (proj2 (proj2 (proj2 (proj2
           (@setup_invokes_bound_handler bench bench_handlers 0
              (vendor_out 0xb3 16 0) bench_device (H_extern jtag_request_scan)
              eq_refl))))).
Defined.

(** Two LED requests for pattern 5 on the bench. *)
Lemma led_pattern_idempotent_witness :
  bRequest (vendor_out 0xa1 5 0) = VENDOR_REQUEST_SET_LED_PATTERN /\
  wValue (vendor_out 0xa1 5 0) = wValue (vendor_out 0xa1 5 0) /\
  blink_pattern
    (dev (bench_setup 0 (vendor_out 0xa1 5 0)
            (dev (bench_setup 0 (vendor_out 0xa1 5 0) bench_device)))) =
  blink_pattern (dev (bench_setup 0 (vendor_out 0xa1 5 0) bench_device)).
Proof.
  split; [reflexivity|]. split; [reflexivity|].
  exact (proj1 (@led_pattern_idempotent bench bench_handlers 0
                  (vendor_out 0xa1 5 0) (vendor_out 0xa1 5 0) bench_device
                  eq_refl eq_refl eq_refl)).
Defined.

(** * Further properties of the dispatch layer *)

(** X1.  No two vendor requests share a code, and every code fits the one-byte
    bRequest field. *)
Theorem vendor_requests_distinct_bytes :
  NoDup vendor_requests /\ Forall (fun code => 0 <= code < 2 ^ 8) vendor_requests.
Proof.
  split.
  - unfold vendor_requests.
    repeat (constructor; [cbv; intuition discriminate|]). constructor.
  - apply Forall_forall. intros code Hin. cbv in Hin. lia.
Qed.

Section Coverage.

Context {P : Platform} {X : Handlers}.

(** ** What a dispatch enters *)

Lemma invoked_dispatch table default rhport request d :
  invoked (trace (dispatch table default rhport request d)) =
  match lookup table (bRequest request) with
  | Some h => [h]
  | None => []
  end.
Proof.
  unfold dispatch. destruct (lookup table (bRequest request)) as [h|].
  - apply run_handler_invoked.
  - reflexivity.
Qed.

Lemma invoked_callback rhport stage request d :
  invoked (trace (tud_vendor_control_xfer_cb rhport stage request d)) =
  match
    (if stage =? CONTROL_STAGE_SETUP then
       lookup (setup_table BOARD_HAS_DEBUG_SPI) (bRequest request)
     else if stage =? CONTROL_STAGE_DATA then lookup data_table (bRequest request)
     else if stage =? CONTROL_STAGE_ACK then lookup finish_table (bRequest request)
     else None)
  with
  | Some h => [h]
  | None => []
  end.
Proof.
  unfold tud_vendor_control_xfer_cb.
  destruct (stage =? CONTROL_STAGE_SETUP);
    [rewrite setup_dispatch; apply invoked_dispatch|].
  destruct (stage =? CONTROL_STAGE_DATA);
    [rewrite complete_dispatch; apply invoked_dispatch|].
  destruct (stage =? CONTROL_STAGE_ACK);
    [rewrite finish_dispatch; apply invoked_dispatch|].
  reflexivity.
Qed.

(** X2.  Whatever the stage value and the request, one call of the callback enters
    at most one handler. *)
Theorem callback_enters_at_most_one_handler rhport stage request d :
  (List.length (invoked (trace (tud_vendor_control_xfer_cb rhport stage request d)))
   <= 1)%nat.
Proof.
  rewrite invoked_callback.
  match goal with |- context [match ?o with Some _ => _ | None => _ end] =>
    destruct o end; cbn; lia.
Qed.

(** X3.  The handler a stage enters is chosen by bRequest alone: two requests with
    the same bRequest enter the same handler at the same stage, whatever
    their other fields, the port and the device. *)
Theorem routing_depends_on_bRequest_only rhport rhport' stage request request' d d' :
  bRequest request = bRequest request' ->
  invoked (trace (tud_vendor_control_xfer_cb rhport stage request d)) =
  invoked (trace (tud_vendor_control_xfer_cb rhport' stage request' d')).
Proof. intros E. rewrite !invoked_callback, E. reflexivity. Qed.

(** X4.  The opcodes the setup stage serves: it enters a handler exactly for
    0xA0-0xA1, 0xB0-0xB6, 0xBE-0xBF, 0xC0-0xC2 and 0xEE, and for 0x50-0x54
    when the board has debug SPI.  The JTAG bulk scan 0xB7, though an
    enumerator, is not among them. *)
Theorem setup_served_opcodes rhport request d :
  invoked (trace (handle_vendor_request_setup rhport request d)) <> [] <->
  (0xa0 <= bRequest request <= 0xa1 \/
   0xb0 <= bRequest request <= 0xb6 \/
   0xbe <= bRequest request <= 0xbf \/
   0xc0 <= bRequest request <= 0xc2 \/
   bRequest request = 0xee \/
   (BOARD_HAS_DEBUG_SPI = true /\ 0x50 <= bRequest request <= 0x54)).
Proof.
  rewrite setup_dispatch, invoked_dispatch.
  generalize (bRequest request). intros op. split.
  - destruct (lookup _ op) as [h|] eqn:E; [intros _|congruence].
    apply lookup_In in E.
    destruct BOARD_HAS_DEBUG_SPI; cbn in E;
      repeat (destruct E as [E|E];
              [injection E as E _; cbv in E;
               first [lia | do 5 right; split; [reflexivity | lia]]|]);
      contradiction.
  - intros [Hr|[Hr|[Hr|[Hr|[Hr|[Hspi Hr]]]]]].
    1-5: rewrite setup_lookup_core by lia.
    + assert (Hc : op = 0xa0 \/ op = 0xa1) by lia.
      destruct Hc as [->| ->]; discriminate.
    + assert (Hc : op = 0xb0 \/ op = 0xb1 \/ op = 0xb2 \/ op = 0xb3 \/
                   op = 0xb4 \/ op = 0xb5 \/ op = 0xb6) by lia.
      destruct Hc as [->|[->|[->|[->|[->|[->| ->]]]]]]; discriminate.
    + assert (Hc : op = 0xbe \/ op = 0xbf) by lia.
      destruct Hc as [->| ->]; discriminate.
    + assert (Hc : op = 0xc0 \/ op = 0xc1 \/ op = 0xc2) by lia.
      destruct Hc as [->|[->| ->]]; discriminate.
    + subst op. discriminate.
    + rewrite Hspi.
      assert (Hc : op = 0x50 \/ op = 0x51 \/ op = 0x52 \/ op = 0x53 \/
                   op = 0x54) by lia.
      destruct Hc as [->|[->|[->|[->| ->]]]]; discriminate.
Qed.

(** ** The takeover call, for every request and stage *)

Lemma stage_labels_apart :
  NoDup [CONTROL_STAGE_SETUP; CONTROL_STAGE_DATA; CONTROL_STAGE_ACK] ->
  CONTROL_STAGE_SETUP <> CONTROL_STAGE_ACK /\
  CONTROL_STAGE_DATA <> CONTROL_STAGE_ACK /\
  CONTROL_STAGE_SETUP <> CONTROL_STAGE_DATA.
Proof.
  intros Hnd.
  inversion Hnd as [|a l Hn1 Hnd1]; subst.
  inversion Hnd1 as [|b l' Hn2 Hnd2]; subst.
  cbn in Hn1, Hn2. repeat split; intros E; rewrite E in *; tauto.
Qed.

(** X5.  With distinct stage labels, one call of the callback calls
    [allow_fpga_takeover_usb()] once when the stage is CONTROL_STAGE_ACK and
    bRequest is 0xC2, and never otherwise: no other request and no other
    stage reaches it. *)
Theorem takeover_needs_ack_of_takeover_request rhport stage request d :
  NoDup [CONTROL_STAGE_SETUP; CONTROL_STAGE_DATA; CONTROL_STAGE_ACK] ->
  takeover_calls (trace (tud_vendor_control_xfer_cb rhport stage request d)) =
  (if (stage =? CONTROL_STAGE_ACK) &&
      (bRequest request =? VENDOR_REQUEST_ALLOW_FPGA_TAKEOVER_USB)
   then 1%nat else 0%nat).
Proof.
  intros Hnd. destruct (stage_labels_apart Hnd) as (Hsa & Hda & _).
  destruct (no_takeover_before_finish rhport request d) as [Hs Hd].
  unfold tud_vendor_control_xfer_cb.
  destruct (Z.eqb_spec stage CONTROL_STAGE_SETUP) as [->|_].
  { rewrite Hs. apply Z.eqb_neq in Hsa. now rewrite Hsa. }
  destruct (Z.eqb_spec stage CONTROL_STAGE_DATA) as [->|_].
  { rewrite Hd. apply Z.eqb_neq in Hda. now rewrite Hda. }
  destruct (stage =? CONTROL_STAGE_ACK); [|reflexivity].
  unfold handle_vendor_request_finish. cbn [andb].
  destruct (bRequest request =? VENDOR_REQUEST_ALLOW_FPGA_TAKEOVER_USB);
    reflexivity.
Qed.

(** X6.  In a transfer taken through its setup, data and finish stages in turn,
    the takeover call is made for bRequest 0xC2 only, once, and it is the
    last thing the transfer does. *)
Theorem takeover_ends_the_transfer rhport request d :
  let t := trace ((handle_vendor_request_setup rhport request ;;
                   handle_vendor_request_complete rhport request ;;
                   handle_vendor_request_finish rhport request) d) in
  if bRequest request =? VENDOR_REQUEST_ALLOW_FPGA_TAKEOVER_USB
  then exists t0, t = t0 ++ [Call_allow_fpga_takeover_usb] /\
                  takeover_calls t0 = 0%nat
  else takeover_calls t = 0%nat.
Proof.
  cbn [bind trace ret dev].
  set (s1 := handle_vendor_request_setup rhport request d).
  set (s2 := handle_vendor_request_complete rhport request (dev s1)).
  destruct (no_takeover_before_finish rhport request d) as [Hs _].
  destruct (no_takeover_before_finish rhport request (dev s1)) as [_ Hd].
  fold s1 in Hs. fold s2 in Hd.
  assert (Hcat : forall a b, takeover_calls (a ++ b) =
                             (takeover_calls a + takeover_calls b)%nat).
  { intros a b. unfold takeover_calls. now rewrite filter_app, length_app. }
  unfold handle_vendor_request_finish.
  destruct (bRequest request =? VENDOR_REQUEST_ALLOW_FPGA_TAKEOVER_USB).
  - exists (trace s1 ++ trace s2 ++
            [Invoke H_allow_fpga_takeover_usb_finish rhport request]).
    split.
    + cbn. now rewrite <- !app_assoc.
    + rewrite !Hcat, Hs, Hd. reflexivity.
  - cbn. rewrite app_nil_r, Hcat, Hs, Hd. reflexivity.
Qed.

(** ** The finish and data stages *)

(** X7.  The finish stage makes no call but the takeover call of bRequest 0xC2:
    it hands nothing to the transfer primitive, calls neither the LED nor the
    FPGA driver, and for any other bRequest leaves the device as it was. *)
Theorem finish_stage_effects rhport request d :
  trace (handle_vendor_request_finish rhport request d) =
    (if bRequest request =? VENDOR_REQUEST_ALLOW_FPGA_TAKEOVER_USB
     then [Invoke H_allow_fpga_takeover_usb_finish rhport request;
           Call_allow_fpga_takeover_usb]
     else []) /\
  submitted (trace (handle_vendor_request_finish rhport request d)) = [] /\
  led_calls (trace (handle_vendor_request_finish rhport request d)) = [] /\
  dev (handle_vendor_request_finish rhport request d) =
    (if bRequest request =? VENDOR_REQUEST_ALLOW_FPGA_TAKEOVER_USB
     then dev (allow_fpga_takeover_usb d) else d).
Proof.
  unfold handle_vendor_request_finish.
  destruct (bRequest request =? VENDOR_REQUEST_ALLOW_FPGA_TAKEOVER_USB);
    repeat split; reflexivity.
Qed.

(** X8.  The SPI completion cases of the data [switch] are not under the
    debug-SPI feature test: for bRequest 0x50 or 0x52 the data stage enters
    the SPI completion handler and returns what it returns, on every board,
    while on a board without debug SPI the setup stage rejects the same
    request. *)
Theorem data_stage_not_feature_gated rhport request d :
  bRequest request = VENDOR_REQUEST_DEBUG_SPI_SEND \/
  bRequest request = VENDOR_REQUEST_FLASH_SPI_SEND ->
  let completion :=
    if bRequest request =? VENDOR_REQUEST_DEBUG_SPI_SEND
    then debug_spi_send_complete else flash_spi_send_complete in
  trace (handle_vendor_request_complete rhport request d) =
    [Invoke (H_extern completion) rhport request] /\
  ret (handle_vendor_request_complete rhport request d) =
    fst (extern_effect completion rhport request d) /\
  dev (handle_vendor_request_complete rhport request d) =
    snd (extern_effect completion rhport request d) /\
  (BOARD_HAS_DEBUG_SPI = false ->
   handle_vendor_request_setup rhport request d = mk_outcome false d []).
Proof.
  intros Hop. cbv zeta.
  repeat split.
  1-3: unfold handle_vendor_request_complete;
       destruct Hop as [E|E]; rewrite E; reflexivity.
  intros Hspi. rewrite setup_unbound; [reflexivity|].
  rewrite Hspi. destruct Hop as [E|E]; rewrite E; reflexivity.
Qed.

(** ** The setup handlers of vendor.c *)

(** The opcode under which the setup [switch] calls a handler of
    vendor.c. *)
Lemma setup_handler_opcode opcode h :
  lookup (setup_table BOARD_HAS_DEBUG_SPI) opcode = Some h ->
  match h with
  | H_get_ms_descriptor => opcode = VENDOR_REQUEST_GET_MS_DESCRIPTOR
  | H_get_id_request => opcode = VENDOR_REQUEST_GET_ID
  | H_set_led_pattern => opcode = VENDOR_REQUEST_SET_LED_PATTERN
  | H_trigger_fpga_reconfiguration => opcode = VENDOR_REQUEST_TRIGGER_RECONFIGURATION
  | H_force_fpga_offline => opcode = VENDOR_REQUEST_FORCE_FPGA_OFFLINE
  | H_allow_fpga_takeover_usb => opcode = VENDOR_REQUEST_ALLOW_FPGA_TAKEOVER_USB
  | H_allow_fpga_takeover_usb_finish => False
  | H_extern _ => True
  end.
Proof.
  intros E. apply lookup_In in E.
  destruct BOARD_HAS_DEBUG_SPI; cbn in E;
    repeat (destruct E as [E|E]; [injection E as <- <-; exact I || reflexivity|]);
    contradiction.
Qed.

Lemma setup_runs_local rhport request (h : handler) (opcode : Z) :
  bRequest request = opcode ->
  lookup (setup_table false) opcode = Some h ->
  ~ (0x50 <= opcode <= 0x54) ->
  handle_vendor_request_setup rhport request = run_handler h rhport request.
Proof.
  intros Hop Hl Hout. apply setup_bound.
  now rewrite Hop, setup_lookup_core.
Qed.

(** X9.  For bRequest 0xC0 the setup stage calls
    [trigger_fpga_reconfiguration()] first and queues the zero-length
    acknowledgment after it: the transfer primitive runs on the hardware as
    the reconfiguration left it, the result is the primitive's, and the
    reconfiguration stays done when the primitive refuses. *)
Theorem reconfiguration_precedes_acknowledgment rhport request d :
  bRequest request = VENDOR_REQUEST_TRIGGER_RECONFIGURATION ->
  let r := handle_vendor_request_setup rhport request d in
  let x := xfer_effect rhport request None 0 (reconfiguration_effect (others d)) in
  trace r = [Invoke H_trigger_fpga_reconfiguration rhport request;
             Call_trigger_fpga_reconfiguration;
             Call_tud_control_xfer rhport request None 0] /\
  ret r = fst x /\
  others (dev r) = snd x.
Proof.
  intros Hop.
  rewrite (setup_runs_local rhport request H_trigger_fpga_reconfiguration
             _ Hop eq_refl) by (cbv; intuition discriminate).
  repeat split.
Qed.

(** X10.  For bRequest 0xC1 the setup stage calls [force_fpga_offline()] first and
    queues the zero-length acknowledgment after it; the result is the
    transfer primitive's, and the FPGA stays forced offline when the
    primitive refuses. *)
Theorem offline_precedes_acknowledgment rhport request d :
  bRequest request = VENDOR_REQUEST_FORCE_FPGA_OFFLINE ->
  let r := handle_vendor_request_setup rhport request d in
  let x := xfer_effect rhport request None 0 (offline_effect (others d)) in
  trace r = [Invoke H_force_fpga_offline rhport request;
             Call_force_fpga_offline;
             Call_tud_control_xfer rhport request None 0] /\
  ret r = fst x /\
  others (dev r) = snd x.
Proof.
  intros Hop.
  rewrite (setup_runs_local rhport request H_force_fpga_offline
             _ Hop eq_refl) by (cbv; intuition discriminate).
  repeat split.
Qed.

(** X11.  For bRequest 0xA1 the setup stage calls [led_set_blink_pattern(wValue)]
    with the request's wValue as it is, then queues the zero-length
    acknowledgment; the result is the transfer primitive's, whose refusal
    does not take the call back. *)
Theorem led_call_precedes_acknowledgment rhport request d :
  bRequest request = VENDOR_REQUEST_SET_LED_PATTERN ->
  let r := handle_vendor_request_setup rhport request d in
  let x := xfer_effect rhport request None 0 (others d) in
  trace r = [Invoke H_set_led_pattern rhport request;
             Call_led_set_blink_pattern (wValue request);
             Call_tud_control_xfer rhport request None 0] /\
  ret r = fst x /\
  others (dev r) = snd x.
Proof.
  intros Hop.
  rewrite (setup_runs_local rhport request H_set_led_pattern
             _ Hop eq_refl) by (cbv; intuition discriminate).
  repeat split.
Qed.

(** X12.  Of the requests the setup stage handles in vendor.c, only the identify
    and OS-descriptor requests are answered with data: any other one that
    has a case is answered by one transfer with a NULL buffer and length 0,
    and one that has no case by no transfer. *)
Theorem only_identify_and_descriptor_carry_data rhport request d :
  setup_local BOARD_HAS_DEBUG_SPI (bRequest request) = true ->
  bRequest request <> VENDOR_REQUEST_GET_ID ->
  bRequest request <> VENDOR_REQUEST_GET_MS_DESCRIPTOR ->
  submitted (trace (handle_vendor_request_setup rhport request d)) =
  match lookup (setup_table BOARD_HAS_DEBUG_SPI) (bRequest request) with
  | Some _ => [(None, 0)]
  | None => []
  end.
Proof.
  intros Hloc Hid Hms. rewrite setup_dispatch. unfold dispatch, setup_local in *.
  destruct (lookup _ (bRequest request)) as [h|] eqn:E; [|reflexivity].
  apply setup_handler_opcode in E.
  destruct h; try reflexivity; try contradiction; discriminate.
Qed.

(** X13.  vendor.c calls [led_set_blink_pattern] in the setup stage of bRequest
    0xA1 only, once, with the request's wValue; the setup stage of any other
    request, and the data and finish stages of every request, make no such
    call. *)
Theorem led_called_for_led_request_only rhport request d :
  led_calls (trace (handle_vendor_request_setup rhport request d)) =
    (if bRequest request =? VENDOR_REQUEST_SET_LED_PATTERN
     then [wValue request] else []) /\
  led_calls (trace (handle_vendor_request_complete rhport request d)) = [] /\
  led_calls (trace (handle_vendor_request_finish rhport request d)) = [].
Proof.
  split; [|split].
  - rewrite setup_dispatch. unfold dispatch.
    destruct (Z.eqb_spec (bRequest request) VENDOR_REQUEST_SET_LED_PATTERN)
      as [Hled|Hled].
    + rewrite Hled, setup_lookup_core by (cbv; intuition discriminate).
      reflexivity.
    + destruct (lookup _ (bRequest request)) as [h|] eqn:E; [|reflexivity].
      apply setup_handler_opcode in E.
      destruct h; try contradiction; try reflexivity.
      cbn. destruct (wIndex request =? 4); reflexivity.
  - rewrite complete_dispatch. unfold dispatch.
    destruct (lookup data_table (bRequest request)) as [h|] eqn:E; [|reflexivity].
    apply lookup_In in E. cbn in E.
    repeat (destruct E as [E|E]; [injection E as _ <-; reflexivity|]).
    contradiction.
  - unfold handle_vendor_request_finish.
    destruct (_ =? _); reflexivity.
Qed.

(** X14.  When the setup stage handles a request in vendor.c and accepts it, it
    has handed exactly one transfer to the transfer primitive; when it has
    handed over none, it has rejected the request and left the device as it
    was. *)
Theorem local_setup_accepts_with_one_transfer rhport request d :
  setup_local BOARD_HAS_DEBUG_SPI (bRequest request) = true ->
  let r := handle_vendor_request_setup rhport request d in
  (ret r = true -> exists buffer len, submitted (trace r) = [(buffer, len)]) /\
  (submitted (trace r) = [] -> ret r = false /\ dev r = d).
Proof.
  intros Hloc. cbv zeta. rewrite setup_dispatch.
  unfold dispatch, setup_local in *.
  destruct (lookup _ (bRequest request)) as [h|] eqn:E.
  - apply setup_handler_opcode in E.
    destruct h; try contradiction; try discriminate; cbn;
      try (split; [intros _; eexists; eexists; reflexivity | discriminate]).
    destruct (wIndex request =? 4); cbn.
    + split; [intros _; eexists; eexists; reflexivity | discriminate].
    + split; [discriminate | intros _; destruct d; split; reflexivity].
  - cbn. split; [discriminate | intros _; split; reflexivity].
Qed.

(** ** Where a rejection comes from *)

(** X15.  When the setup stage handles a request in vendor.c and rejects it, the
    opcode has no case, or it is the OS-descriptor request with a wIndex
    other than 4, or the handler handed one transfer to the transfer
    primitive and the primitive refused that very call: the call made on the
    hardware as the handler had left it, after the reconfiguration for
    bRequest 0xC0, after the forcing offline for 0xC1, and untouched for
    every other request. *)
Theorem setup_rejection_causes rhport request d :
  setup_local BOARD_HAS_DEBUG_SPI (bRequest request) = true ->
  ret (handle_vendor_request_setup rhport request d) = false ->
  let hw :=
    if bRequest request =? VENDOR_REQUEST_TRIGGER_RECONFIGURATION
    then reconfiguration_effect (others d)
    else if bRequest request =? VENDOR_REQUEST_FORCE_FPGA_OFFLINE
    then offline_effect (others d)
    else others d in
  lookup (setup_table BOARD_HAS_DEBUG_SPI) (bRequest request) = None \/
  (bRequest request = VENDOR_REQUEST_GET_MS_DESCRIPTOR /\ wIndex request <> 0x0004) \/
  (exists buffer len,
     submitted (trace (handle_vendor_request_setup rhport request d)) =
       [(buffer, len)] /\
     ret (handle_vendor_request_setup rhport request d) =
       fst (xfer_effect rhport request buffer len hw) /\
     fst (xfer_effect rhport request buffer len hw) = false).
Proof.
  intros Hloc. cbv zeta. rewrite setup_dispatch. unfold dispatch, setup_local in *.
  destruct (lookup _ (bRequest request)) as [h|] eqn:E; [|now left].
  apply setup_handler_opcode in E. intros Hret. right.
  destruct h; try contradiction; try discriminate; rewrite E.
  - cbn in Hret |- *.
    destruct (Z.eqb_spec (wIndex request) 4) as [Hi|Hi].
    + right. eexists; eexists. split; [reflexivity|]. split; [reflexivity | exact Hret].
    + left. now split.
  - right. eexists; eexists. split; [reflexivity|]. split; [reflexivity | exact Hret].
  - right. eexists; eexists. split; [reflexivity|]. split; [reflexivity | exact Hret].
  - right. eexists; eexists. split; [reflexivity|]. split; [reflexivity | exact Hret].
  - right. eexists; eexists. split; [reflexivity|]. split; [reflexivity | exact Hret].
  - right. eexists; eexists. split; [reflexivity|]. split; [reflexivity | exact Hret].
Qed.

(** X16.  The data stage rejects a request only when it is an SPI send (bRequest
    0x50 or 0x52) whose completion handler returned false. *)
Theorem data_rejection_comes_from_spi_completion rhport request d :
  ret (handle_vendor_request_complete rhport request d) = false ->
  (bRequest request = VENDOR_REQUEST_DEBUG_SPI_SEND /\
   fst (extern_effect debug_spi_send_complete rhport request d) = false) \/
  (bRequest request = VENDOR_REQUEST_FLASH_SPI_SEND /\
   fst (extern_effect flash_spi_send_complete rhport request d) = false).
Proof.
  unfold handle_vendor_request_complete.
  destruct (Z.eqb_spec (bRequest request) VENDOR_REQUEST_DEBUG_SPI_SEND) as [E|_].
  { intros Hret. left. now split. }
  destruct (Z.eqb_spec (bRequest request) VENDOR_REQUEST_FLASH_SPI_SEND) as [E|_].
  { intros Hret. right. now split. }
  discriminate.
Qed.

End Coverage.

(** ** On the bench *)

(** A JTAG scan sent host-to-device and the same opcode sent device-to-host
    with other parameters, on another port. *)
Lemma routing_depends_on_bRequest_only_witness :
  bRequest (vendor_out 0xb3 16 0) = bRequest (vendor_in 0xb3 0 7 64) /\
  invoked (trace (bench_cb 0 1 (vendor_out 0xb3 16 0) bench_device)) =
  invoked (trace (bench_cb 1 1 (vendor_in 0xb3 0 7 64) (@mk_device bench 9 tt))).
Proof.
  split; [reflexivity|].
  exact (@routing_depends_on_bRequest_only bench bench_handlers 0 1 1
           (vendor_out 0xb3 16 0) (vendor_in 0xb3 0 7 64)
           bench_device (@mk_device bench 9 tt) eq_refl).
Defined.

(** The takeover request at the data stage of the bench. *)
Lemma takeover_needs_ack_of_takeover_request_witness :
  NoDup [@CONTROL_STAGE_SETUP bench; @CONTROL_STAGE_DATA bench; @CONTROL_STAGE_ACK bench] /\
  takeover_calls (trace (bench_cb 0 2 (vendor_out 0xc2 0 0) bench_device)) = 0%nat.
Proof.
  assert (Hstages : NoDup [@CONTROL_STAGE_SETUP bench; @CONTROL_STAGE_DATA bench;
                           @CONTROL_STAGE_ACK bench]).
  { repeat constructor; cbn; intuition discriminate. }
  split; [exact Hstages|].
  exact (@takeover_needs_ack_of_takeover_request bench bench_handlers 0 2
           (vendor_out 0xc2 0 0) bench_device Hstages).
Defined.

(** A flash SPI send on the bench, which has no debug SPI. *)
Lemma data_stage_not_feature_gated_witness :
  (bRequest (vendor_out 0x52 0 0) = VENDOR_REQUEST_DEBUG_SPI_SEND \/
   bRequest (vendor_out 0x52 0 0) = VENDOR_REQUEST_FLASH_SPI_SEND) /\
  @BOARD_HAS_DEBUG_SPI bench = false /\
  trace (bench_complete 0 (vendor_out 0x52 0 0) bench_device) =
    [Invoke (H_extern flash_spi_send_complete) 0 (vendor_out 0x52 0 0)] /\
  bench_setup 0 (vendor_out 0x52 0 0) bench_device = mk_outcome false bench_device [].
Proof.
  assert (Hop : bRequest (vendor_out 0x52 0 0) = VENDOR_REQUEST_DEBUG_SPI_SEND \/
                bRequest (vendor_out 0x52 0 0) = VENDOR_REQUEST_FLASH_SPI_SEND)
    by (right; reflexivity).
  split; [exact Hop|]. split; [reflexivity|].
  pose proof (@data_stage_not_feature_gated bench bench_handlers 0
                (vendor_out 0x52 0 0) bench_device Hop) as W.
  split; [exact (proj1 W) | exact (proj2 (proj2 (proj2 W)) eq_refl)].
Defined.

(** A reconfiguration request on the bench. *)
Lemma reconfiguration_precedes_acknowledgment_witness :
  bRequest (vendor_out 0xc0 0 0) = VENDOR_REQUEST_TRIGGER_RECONFIGURATION /\
  trace (bench_setup 0 (vendor_out 0xc0 0 0) bench_device) =
    [Invoke H_trigger_fpga_reconfiguration 0 (vendor_out 0xc0 0 0);
     Call_trigger_fpga_reconfiguration;
     Call_tud_control_xfer 0 (vendor_out 0xc0 0 0) None 0].
Proof.
  split; [reflexivity|].
  exact (proj1 (@reconfiguration_precedes_acknowledgment bench bench_handlers 0
                  (vendor_out 0xc0 0 0) bench_device eq_refl)).
Defined.

(** A force-offline request on the bench. *)
Lemma offline_precedes_acknowledgment_witness :
  bRequest (vendor_out 0xc1 0 0) = VENDOR_REQUEST_FORCE_FPGA_OFFLINE /\
  trace (bench_setup 0 (vendor_out 0xc1 0 0) bench_device) =
    [Invoke H_force_fpga_offline 0 (vendor_out 0xc1 0 0);
     Call_force_fpga_offline;
     Call_tud_control_xfer 0 (vendor_out 0xc1 0 0) None 0].
Proof.
  split; [reflexivity|].
  exact (proj1 (@offline_precedes_acknowledgment bench bench_handlers 0
                  (vendor_out 0xc1 0 0) bench_device eq_refl)).
Defined.

(** An LED request for pattern 7 on the bench. *)
Lemma led_call_precedes_acknowledgment_witness :
  bRequest (vendor_out 0xa1 7 0) = VENDOR_REQUEST_SET_LED_PATTERN /\
  trace (bench_setup 0 (vendor_out 0xa1 7 0) bench_device) =
    [Invoke H_set_led_pattern 0 (vendor_out 0xa1 7 0);
     Call_led_set_blink_pattern 7;
     Call_tud_control_xfer 0 (vendor_out 0xa1 7 0) None 0].
Proof.
  split; [reflexivity|].
  exact (proj1 (@led_call_precedes_acknowledgment bench bench_handlers 0
                  (vendor_out 0xa1 7 0) bench_device eq_refl)).
Defined.

(** The takeover request at the setup stage of the bench. *)
Lemma only_identify_and_descriptor_carry_data_witness :
  setup_local (@BOARD_HAS_DEBUG_SPI bench) (bRequest (vendor_out 0xc2 0 0)) = true /\
  bRequest (vendor_out 0xc2 0 0) <> VENDOR_REQUEST_GET_ID /\
  bRequest (vendor_out 0xc2 0 0) <> VENDOR_REQUEST_GET_MS_DESCRIPTOR /\
  submitted (trace (bench_setup 0 (vendor_out 0xc2 0 0) bench_device)) = [(None, 0)].
Proof.
  assert (Hid : bRequest (vendor_out 0xc2 0 0) <> VENDOR_REQUEST_GET_ID)
    by (cbv; discriminate).
  assert (Hms : bRequest (vendor_out 0xc2 0 0) <> VENDOR_REQUEST_GET_MS_DESCRIPTOR)
    by (cbv; discriminate).
  split; [reflexivity|]. split; [exact Hid|]. split; [exact Hms|].
  exact (@only_identify_and_descriptor_carry_data bench bench_handlers 0
           (vendor_out 0xc2 0 0) bench_device eq_refl Hid Hms).
Defined.

(** The OS-descriptor request with a wrong index: nothing is handed over,
    and the request is rejected. *)
Lemma local_setup_accepts_with_one_transfer_witness :
  setup_local (@BOARD_HAS_DEBUG_SPI bench) (bRequest (vendor_in 0xee 0 5 40)) = true /\
  submitted (trace (bench_setup 0 (vendor_in 0xee 0 5 40) bench_device)) = [] /\
  ret (bench_setup 0 (vendor_in 0xee 0 5 40) bench_device) = false /\
  dev (bench_setup 0 (vendor_in 0xee 0 5 40) bench_device) = bench_device.
Proof.
  split; [reflexivity|]. split; [reflexivity|].
  exact (proj2 (@local_setup_accepts_with_one_transfer bench bench_handlers 0
                  (vendor_in 0xee 0 5 40) bench_device eq_refl) eq_refl).
Defined.

(** The identify request while the controller refuses every transfer. *)
Lemma setup_rejection_causes_witness :
  setup_local (@BOARD_HAS_DEBUG_SPI busy_bench) (bRequest (vendor_in 0xa0 0 0 64)) = true /\
  ret (@handle_vendor_request_setup busy_bench busy_handlers 0
         (vendor_in 0xa0 0 0 64) (@mk_device busy_bench 0 tt)) = false /\
  (lookup (setup_table (@BOARD_HAS_DEBUG_SPI busy_bench))
          (bRequest (vendor_in 0xa0 0 0 64)) = None \/
   (bRequest (vendor_in 0xa0 0 0 64) = VENDOR_REQUEST_GET_MS_DESCRIPTOR /\
    wIndex (vendor_in 0xa0 0 0 64) <> 0x0004) \/
   (exists buffer len,
      submitted (trace (@handle_vendor_request_setup busy_bench busy_handlers 0
                          (vendor_in 0xa0 0 0 64) (@mk_device busy_bench 0 tt))) =
        [(buffer, len)] /\
      ret (@handle_vendor_request_setup busy_bench busy_handlers 0
             (vendor_in 0xa0 0 0 64) (@mk_device busy_bench 0 tt)) =
        fst (@xfer_effect busy_bench 0 (vendor_in 0xa0 0 0 64) buffer len tt) /\
      fst (@xfer_effect busy_bench 0 (vendor_in 0xa0 0 0 64) buffer len tt) = false)).
Proof.
  split; [reflexivity|]. split; [reflexivity|].
  exact (@setup_rejection_causes busy_bench busy_handlers 0
           (vendor_in 0xa0 0 0 64) (@mk_device busy_bench 0 tt) eq_refl eq_refl).
Defined.

(** A debug SPI send whose completion handler declines. *)
Lemma data_rejection_comes_from_spi_completion_witness :
  ret (@handle_vendor_request_complete busy_bench busy_handlers 0
         (vendor_out 0x50 0 0) (@mk_device busy_bench 0 tt)) = false /\
  ((bRequest (vendor_out 0x50 0 0) = VENDOR_REQUEST_DEBUG_SPI_SEND /\
    fst (@extern_effect busy_bench busy_handlers debug_spi_send_complete 0
           (vendor_out 0x50 0 0) (@mk_device busy_bench 0 tt)) = false) \/
   (bRequest (vendor_out 0x50 0 0) = VENDOR_REQUEST_FLASH_SPI_SEND /\
    fst (@extern_effect busy_bench busy_handlers flash_spi_send_complete 0
           (vendor_out 0x50 0 0) (@mk_device busy_bench 0 tt)) = false)).
Proof.
  split; [reflexivity|].
  exact (@data_rejection_comes_from_spi_completion busy_bench busy_handlers 0
           (vendor_out 0x50 0 0) (@mk_device busy_bench 0 tt) eq_refl).
Defined.
